(** * Adaptive health polling of the provider health hook

    A shallow embedding of
    [frontend/app/api/queries/useProviderHealthQuery.ts]: the health check
    [checkProviderHealth], the [refetchInterval] policy with its process-wide
    [failureCountMap], and the options object handed to [useQuery].

    JavaScript values are an inductive type, exceptions and rejected promises
    an error monad, the [Map<string, number>] a [gmap string Z]. *)

From Stdlib Require Import ZArith String List.
From Stdlib Require Import Floats.SpecFloat.
From stdpp Require Import base option strings gmap.

Set Warnings "-register-all".

Open Scope string_scope.
Open Scope Z_scope.

(** ** JavaScript values *)

Module Js.

(** A value: what [JSON.parse] can build, plus [undefined] and opaque function
    values.  A number is an IEEE 754 double ([spec_float]).  An object is the
    list of its own properties in insertion order, keys distinct. *)
Inductive JsVal : Type :=
  | JUndefined
  | JNull
  | JBool (b : bool)
  | JNum (x : spec_float)
  | JStr (s : string)
  | JArr (items : list JsVal)
  | JObj (props : list (string * JsVal))
  | JFun (name : string).

(** The double of a (small) integer literal such as [30000]. *)
Definition num_of_Z (z : Z) : spec_float :=
  match z with
  | Z0 => S754_zero false
  | Zpos p => S754_finite false p 0
  | Zneg p => S754_finite true p 0
  end.

(** [ToBoolean]: [undefined], [null], [false], [+0], [-0], [NaN] and the empty
    string are falsy, everything else is truthy. *)
Definition truthy (v : JsVal) : bool :=
  match v with
  | JUndefined | JNull => false
  | JBool b => b
  | JNum (S754_zero _) | JNum S754_nan => false
  | JNum _ => true
  | JStr EmptyString => false
  | JStr _ => true
  | JArr _ | JObj _ | JFun _ => true
  end.

(** [a || b] on values that are already evaluated. *)
Definition or_else (a b : JsVal) : JsVal := if truthy a then a else b.

(** [a !== false]. *)
Definition not_false (v : JsVal) : bool :=
  match v with
  | JBool false => false
  | _ => true
  end.

(** [v === "s"] for a string literal. *)
Definition is_str (v : JsVal) (s : string) : bool :=
  match v with
  | JStr t => String.eqb t s
  | _ => false
  end.

(** Own-property lookup in a property list. *)
Fixpoint assoc (k : string) (props : list (string * JsVal)) : option JsVal :=
  match props with
  | [] => None
  | (k', v) :: rest => if String.eqb k' k then Some v else assoc k rest
  end.

(** [o[k] = v] on a property list: an existing key keeps its position. *)
Fixpoint set_prop (k : string) (v : JsVal) (props : list (string * JsVal))
  : list (string * JsVal) :=
  match props with
  | [] => [(k, v)]
  | (k', v') :: rest =>
      if String.eqb k' k then (k, v) :: rest else (k', v') :: set_prop k v rest
  end.

(** [{...base, ...src}]: the own properties of [src] are copied in order. *)
Definition spread (base src : list (string * JsVal)) : list (string * JsVal) :=
  fold_left (fun acc kv => set_prop (fst kv) (snd kv) acc) src base.

(** An object literal [{k1: v1, ..., kn: vn}]. *)
Definition literal (props : list (string * JsVal)) : list (string * JsVal) :=
  spread [] props.

(** ** Exceptions and rejections *)

(** What a [throw] or a rejected promise carries: an [Error] instance with its
    [message], or any other value. *)
Inductive Thrown : Type :=
  | ErrorInstance (message : string)
  | NonError (v : JsVal).

(** A completion: a value, or an abrupt completion with a thrown value. *)
Inductive Completion (A : Type) : Type :=
  | Normal (a : A)
  | Throw (e : Thrown).
Arguments Normal {A} a.
Arguments Throw {A} e.

#[global] Instance Completion_ret : MRet Completion := @Normal.
#[global] Instance Completion_bind : MBind Completion :=
  fun A B f m => match m with Normal a => f a | Throw e => Throw e end.

(** [try { body } catch (error) { handler }]. *)
Definition try_catch {A} (body : Completion A) (handler : Thrown -> Completion A)
  : Completion A :=
  match body with
  | Normal a => Normal a
  | Throw e => handler e
  end.

(** [promise.catch(h)]: a rejection is replaced by the handler's value. *)
Definition promise_catch {A} (p : Completion A) (h : Thrown -> A) : Completion A :=
  match p with
  | Normal a => Normal a
  | Throw e => Normal (h e)
  end.

(** The message of the [TypeError] raised by reading a property of [null] or
    [undefined] (V8's wording). *)
Definition type_error_message (base : JsVal) (k : string) : string :=
  "Cannot read properties of "
  ++ (match base with JNull => "null" | _ => "undefined" end)
  ++ " (reading '" ++ k ++ "')".

(** [base.k] for the property names read in this file ([status], [message],
    [provider], [llm_provider], [embedding_provider], [llm_error],
    [embedding_error], [details], [edited], [enabled]): none of them is a
    built-in property of a string, number, boolean, array or function, so only
    objects can answer with something else than [undefined]; [null] and
    [undefined] raise a [TypeError]. *)
Definition get (base : JsVal) (k : string) : Completion JsVal :=
  match base with
  | JUndefined | JNull => Throw (ErrorInstance (type_error_message base k))
  | JObj props => Normal (default JUndefined (assoc k props))
  | _ => Normal JUndefined
  end.

(** [base?.k]: optional chaining short-circuits on [null] and [undefined]. *)
Definition get_opt (base : JsVal) (k : string) : JsVal :=
  match base with
  | JUndefined | JNull => JUndefined
  | JObj props => default JUndefined (assoc k props)
  | _ => JUndefined
  end.

(** [array[i]] for a numeric index: [undefined] (here [None]) out of range. *)
Definition index {A} (l : list A) (i : Z) : option A :=
  if i <? 0 then None else l !! Z.to_nat i.

End Js.
Import Js.

(** ** The health check *)

Inductive Provider : Type := openai | ollama | watsonx.

Definition provider_name (p : Provider) : string :=
  match p with
  | openai => "openai"
  | ollama => "ollama"
  | watsonx => "watsonx"
  end.

Record ProviderHealthParams : Type := { provider : option Provider }.

(** [params?.provider], with [params] itself optional. *)
Definition params_provider (params : option ProviderHealthParams) : JsVal :=
  match params with
  | Some {| provider := Some p |} => JStr (provider_name p)
  | _ => JUndefined
  end.

(** A [fetch] response: the status code and what [response.json()] settles
    to.  [response.ok] is derived from the code as the Fetch standard has it. *)
Record Response : Type := { status : Z; json : Completion JsVal }.

Definition ok (response : Response) : bool :=
  (200 <=? status response) && (status response <=? 299).

(** [new URL(path, base)] where [base] is [window.location.origin], the
    serialisation of an origin: ["null"] for an opaque origin, which is no
    valid base, and [scheme://host[:port]] otherwise. *)
Definition URL_new (path base : string) : Completion string :=
  if String.eqb base "null"
  then Throw (ErrorInstance "Failed to construct 'URL': Invalid URL")
  else Normal (base ++ path).

(** [url.searchParams.set("provider", p)] on a URL without a query; the three
    provider names need no percent-encoding. *)
Definition searchParams_set (url k v : string) : string :=
  url ++ "?" ++ k ++ "=" ++ v.

Section Hook.

(** The page's origin, the network, the hook's [params] argument. *)
Variable origin : string.
Variable fetch : string -> Completion Response.
Variable params : option ProviderHealthParams.

(** Lines 45-52: build the URL and [await fetch(url.toString())]. *)
Definition request : Completion Response :=
  url ← URL_new "/api/provider/health" origin;
  let url :=
    match params_provider params with
    | JStr p => if truthy (JStr p) then searchParams_set url "provider" p else url
    | _ => url
    end in
  fetch url.

Definition checkProviderHealth : Completion JsVal :=
  try_catch
    (response ← request;
     if ok response then
       json response
     else if status response =? 503 then
       errorData ← promise_catch (json response) (fun _ => JObj []);
       message ← get errorData "message";
       provider ← get errorData "provider";
       llm_provider ← get errorData "llm_provider";
       embedding_provider ← get errorData "embedding_provider";
       llm_error ← get errorData "llm_error";
       embedding_error ← get errorData "embedding_error";
       details ← get errorData "details";
       mret (JObj (literal
         [ ("status", JStr "unhealthy");
           ("message", or_else message (JStr "Provider validation failed"));
           ("provider",
             or_else (or_else provider (params_provider params)) (JStr "unknown"));
           ("llm_provider", llm_provider);
           ("embedding_provider", embedding_provider);
           ("llm_error", llm_error);
           ("embedding_error", embedding_error);
           ("details", details) ]))
     else
       errorData ← promise_catch (json response) (fun _ => JObj []);
       message ← get errorData "message";
       provider ← get errorData "provider";
       llm_provider ← get errorData "llm_provider";
       embedding_provider ← get errorData "embedding_provider";
       llm_error ← get errorData "llm_error";
       embedding_error ← get errorData "embedding_error";
       details ← get errorData "details";
       mret (JObj (literal
         [ ("status", JStr "error");
           ("message", or_else message (JStr "Failed to check provider health"));
           ("provider",
             or_else (or_else provider (params_provider params)) (JStr "unknown"));
           ("llm_provider", llm_provider);
           ("embedding_provider", embedding_provider);
           ("llm_error", llm_error);
           ("embedding_error", embedding_error);
           ("details", details) ])))
    (fun error =>
       mret (JObj (literal
         [ ("status", JStr "backend-unavailable");
           ("message",
             JStr (match error with
                   | ErrorInstance message => message
                   | NonError _ => "Connection failed"
                   end));
           ("provider", or_else (params_provider params) (JStr "unknown")) ]))).

End Hook.

(** ** The refetch-interval policy *)

Definition queryKey : list string := ["provider"; "health"].

(** [queryKey.join("-")]. *)
Definition failureCountKey : string := String.concat "-" queryKey.

Definition backoffDelays : list Z := [5000; 10000; 20000; 30000].

(** [failureCountMap.get(key) || 0]: an absent key reads [undefined], and
    [undefined] and [0] are falsy.  The counts are integers far below 2^53,
    where the arithmetic of [number] is exact; they are integers here. *)
Definition get_or (failureCountMap : gmap string Z) (key : string) (d : Z) : Z :=
  match failureCountMap !! key with
  | Some c => if c =? 0 then d else c
  | None => d
  end.

(** The [refetchInterval] callback: [data] is [query.state.data] ([undefined]
    before the first result), the map is the module-level [failureCountMap],
    which the callback reads and writes; the result is the new map and the
    returned delay ([None] for [undefined]). *)
Definition refetchInterval (key : string) (data : JsVal)
    (failureCountMap : gmap string Z) : gmap string Z * option Z :=
  let status := get_opt data "status" in
  if is_str status "healthy" then
    (<[key := 0]> failureCountMap, Some 30000)
  else if is_str status "backend-unavailable" then
    (failureCountMap, Some 15000)
  else
    let currentFailures := get_or failureCountMap key 0 in
    let failureCountMap := <[key := currentFailures + 1]> failureCountMap in
    let delay :=
      index backoffDelays
        (Z.min currentFailures (Z.of_nat (length backoffDelays) - 1)) in
    (failureCountMap, delay).

(** The callback evaluated on a list of inputs, in order, on the shared map:
    one element is one evaluation, not one poll.  The hook only hands the
    callback to [useQuery], which evaluates it whenever it updates its timers:
    before any result has arrived ([query.state.data] undefined) and as often
    as it likes on the same result. *)
Fixpoint polls (key : string) (results : list JsVal)
    (failureCountMap : gmap string Z) : gmap string Z * list (option Z) :=
  match results with
  | [] => (failureCountMap, [])
  | data :: rest =>
      let '(m, delay) := refetchInterval key data failureCountMap in
      let '(m', delays) := polls key rest m in
      (m', delay :: delays)
  end.

(** The states of [failureCountMap]: empty when the module is loaded, then
    changed only by the callback, for any series key and any result. *)
Inductive reachable : gmap string Z -> Prop :=
  | reachable_init : reachable ∅
  | reachable_step m key data :
      reachable m -> reachable (refetchInterval key data m).1.

(** ** The options handed to [useQuery] *)

(** Lines 97-131 without the two function-valued entries' bodies.
    [settingsData] is the [data] of [useGetSettingsQuery()], defaulted to [{}]
    when [undefined]; [options] is the hook's optional second argument. *)
Definition useQuery_options (settingsData : JsVal)
    (options : option (list (string * JsVal))) : list (string * JsVal) :=
  let settings := match settingsData with JUndefined => JObj [] | v => v end in
  let options_enabled :=
    match options with
    | Some props => default JUndefined (assoc "enabled" props)
    | None => JUndefined
    end in
  spread
    (literal
      [ ("queryKey", JArr (map JStr queryKey));
        ("queryFn", JFun "checkProviderHealth");
        ("retry", JBool false);
        ("refetchInterval", JFun "refetchInterval");
        ("refetchOnWindowFocus", JBool false);
        ("refetchOnMount", JBool true);
        ("staleTime", JNum (num_of_Z 30000));
        ("enabled",
          JBool (truthy (get_opt settings "edited") && not_false options_enabled)) ])
    (default [] options).

(** The gate the hook computes on line 129. *)
Definition gate (settingsData : JsVal) (options : option (list (string * JsVal)))
  : bool :=
  let settings := match settingsData with JUndefined => JObj [] | v => v end in
  truthy (get_opt settings "edited")
  && not_false (match options with
                | Some props => default JUndefined (assoc "enabled" props)
                | None => JUndefined
                end).

(** TanStack Query fetches and re-polls a query unless its [enabled] option is
    [false]. *)
Definition polling (queryOptions : list (string * JsVal)) : bool :=
  not_false (default JUndefined (assoc "enabled" queryOptions)).

(** * Properties *)

(** ** Vocabulary of the statements *)

(** [data?.status === s]. *)
Definition has_status (data : JsVal) (s : string) : Prop :=
  get_opt data "status" = JStr s.

(** The consecutive-failure count the callback reads for a series key. *)
Definition failures (failureCountMap : gmap string Z) (key : string) : Z :=
  get_or failureCountMap key 0.

(** A report with the given status, as a poll may produce it. *)
Definition report (s : string) : JsVal :=
  JObj [("status", JStr s); ("message", JStr "provider health")].

(** [params?.provider || "unknown"] as a string. *)
Definition filter_or_unknown (params : option ProviderHealthParams) : string :=
  match params with
  | Some {| provider := Some p |} => provider_name p
  | _ => "unknown"
  end.

(** The same response with another outcome of [response.json()]. *)
Definition with_json (response : Response) (body : Completion JsVal) : Response :=
  {| status := status response; json := body |}.

(** Every stored count is non-negative. *)
Definition counts_nonneg (m : gmap string Z) : Prop :=
  forall k c, m !! k = Some c -> 0 <= c.

(** Substitution of [{}] for the body of one response: the outcome is the one
    of the same response with the body [{}]. *)
Definition degrades_to_defaults (origin : string)
    (params : option ProviderHealthParams) (response : Response) : Prop :=
  checkProviderHealth origin (fun _ => Normal response) params
  = checkProviderHealth origin
      (fun _ => Normal (with_json response (Normal (JObj [])))) params.

(** ** Vocabulary of the further properties *)

(** The URL the health check requests: the health path on the page's origin,
    with the provider as the query when [params] names one. *)
Definition health_url (origin : string) (params : option ProviderHealthParams)
  : string :=
  match params with
  | Some {| provider := Some p |} =>
      (origin ++ "/api/provider/health") ++ "?provider=" ++ provider_name p
  | _ => origin ++ "/api/provider/health"
  end.

(** [v == null]: [null] or [undefined]. *)
Definition nullish (v : JsVal) : bool :=
  match v with
  | JUndefined | JNull => true
  | _ => false
  end.

Definition is_object (v : JsVal) : bool :=
  match v with
  | JObj _ => true
  | _ => false
  end.

(** The branch of the policy a result takes: the two tests of the callback,
    and what is left for the backoff. *)
Definition is_healthy (data : JsVal) : bool :=
  is_str (get_opt data "status") "healthy".

Definition is_unavailable (data : JsVal) : bool :=
  is_str (get_opt data "status") "backend-unavailable".

Definition is_failing (data : JsVal) : bool :=
  negb (is_healthy data) && negb (is_unavailable data).

(** The delays a series of polls gets, without those of the results for which
    [skip] holds. *)
Fixpoint delays_without (skip : JsVal -> bool) (results : list JsVal)
    (delays : list (option Z)) : list (option Z) :=
  match results, delays with
  | data :: results', delay :: delays' =>
      if skip data then delays_without skip results' delays'
      else delay :: delays_without skip results' delays'
  | _, _ => []
  end.

(** ** The policy, case by case *)

Lemma report_has_status s : has_status (report s) s.
Proof. reflexivity. Qed.

Lemma refetchInterval_healthy key data m :
  has_status data "healthy" ->
  refetchInterval key data m = (<[key := 0]> m, Some 30000).
Proof. unfold has_status, refetchInterval. intros ->. reflexivity. Qed.

Lemma refetchInterval_unavailable key data m :
  has_status data "backend-unavailable" ->
  refetchInterval key data m = (m, Some 15000).
Proof. unfold has_status, refetchInterval. intros ->. reflexivity. Qed.

Lemma refetchInterval_backoff key data m :
  is_str (get_opt data "status") "healthy" = false ->
  is_str (get_opt data "status") "backend-unavailable" = false ->
  refetchInterval key data m
  = (<[key := failures m key + 1]> m,
     index backoffDelays (Z.min (failures m key) 3)).
Proof. unfold refetchInterval. intros -> ->. reflexivity. Qed.

Lemma refetchInterval_failing key data m :
  has_status data "error" \/ has_status data "unhealthy" ->
  refetchInterval key data m
  = (<[key := failures m key + 1]> m,
     index backoffDelays (Z.min (failures m key) 3)).
Proof.
  unfold has_status. intros [H | H]; apply refetchInterval_backoff;
    rewrite H; reflexivity.
Qed.

Lemma failures_insert key c m : failures (<[key := c]> m) key = c.
Proof.
  unfold failures, get_or. rewrite lookup_insert_eq.
  destruct (Z.eqb_spec c 0); congruence.
Qed.

Lemma failures_insert_ne key k c m :
  key <> k -> failures (<[key := c]> m) k = failures m k.
Proof. intros H. unfold failures, get_or. rewrite lookup_insert_ne; done. Qed.

Lemma failures_empty key : failures ∅ key = 0.
Proof. reflexivity. Qed.

(** The table read at the saturated index. *)
Lemma backoff_index c :
  0 <= c ->
  index backoffDelays (Z.min c 3)
  = Some (if c =? 0 then 5000 else if c =? 1 then 10000
          else if c =? 2 then 20000 else 30000).
Proof.
  intros Hc. destruct (Z.min_spec c 3) as [[Hlt ->] | [Hge ->]].
  - assert (c = 0 \/ c = 1 \/ c = 2) as [-> | [-> | ->]] by lia; reflexivity.
  - destruct (Z.eqb_spec c 0); [lia |]. destruct (Z.eqb_spec c 1); [lia |].
    destruct (Z.eqb_spec c 2); [lia |]. reflexivity.
Qed.

Lemma polls_app key before after m :
  (polls key (before ++ after) m).2
  = ((polls key before m).2 ++ (polls key after (polls key before m).1).2)%list
  /\ (polls key (before ++ after) m).1
     = (polls key after (polls key before m).1).1.
Proof.
  revert m. induction before as [| data rest IH]; intros m; simpl.
  - split; reflexivity.
  - destruct (refetchInterval key data m) as [m1 delay].
    specialize (IH m1).
    destruct (polls key (rest ++ after) m1) as [m2 ds].
    destruct (polls key rest m1) as [m3 ds']. simpl in *.
    destruct IH as [-> ->]. split; reflexivity.
Qed.

(** ** The counter stays a count *)

Lemma counts_nonneg_failures m key : counts_nonneg m -> 0 <= failures m key.
Proof.
  intros H. unfold failures, get_or.
  destruct (m !! key) as [c |] eqn:E; [| lia].
  destruct (Z.eqb_spec c 0); [lia | eauto].
Qed.

Lemma counts_nonneg_insert m key c :
  0 <= c -> counts_nonneg m -> counts_nonneg (<[key := c]> m).
Proof.
  intros Hc H k c'. rewrite lookup_insert.
  case_decide; [intros [= <-]; exact Hc | apply H].
Qed.

Lemma refetchInterval_counts_nonneg key data m :
  counts_nonneg m -> counts_nonneg (refetchInterval key data m).1.
Proof.
  intros H. unfold refetchInterval.
  destruct (is_str (get_opt data "status") "healthy"); simpl.
  - apply counts_nonneg_insert; [lia | exact H].
  - destruct (is_str (get_opt data "status") "backend-unavailable"); simpl.
    + exact H.
    + apply counts_nonneg_insert; [| exact H].
      pose proof (counts_nonneg_failures m key H). unfold failures in *. lia.
Qed.

Lemma reachable_counts_nonneg m : reachable m -> counts_nonneg m.
Proof.
  induction 1 as [| m key data _ IH].
  - intros k c. rewrite lookup_empty. discriminate.
  - apply refetchInterval_counts_nonneg, IH.
Qed.

Lemma refetchInterval_other_keys key data m k :
  key <> k -> (refetchInterval key data m).1 !! k = m !! k.
Proof.
  intros Hne. unfold refetchInterval.
  destruct (is_str (get_opt data "status") "healthy"); simpl.
  - by rewrite lookup_insert_ne.
  - destruct (is_str (get_opt data "status") "backend-unavailable"); simpl.
    + reflexivity.
    + by rewrite lookup_insert_ne.
Qed.

(** ** Series of evaluations *)

Lemma polls_failing key data rest m :
  has_status data "error" \/ has_status data "unhealthy" ->
  polls key (data :: rest) m
  = ((polls key rest (<[key := failures m key + 1]> m)).1,
     index backoffDelays (Z.min (failures m key) 3)
       :: (polls key rest (<[key := failures m key + 1]> m)).2).
Proof.
  intros H. simpl. rewrite (refetchInterval_failing key data m H).
  destruct (polls key rest _); reflexivity.
Qed.

Lemma polls_healthy key data rest m :
  has_status data "healthy" ->
  polls key (data :: rest) m
  = ((polls key rest (<[key := 0]> m)).1,
     Some 30000 :: (polls key rest (<[key := 0]> m)).2).
Proof.
  intros H. simpl. rewrite (refetchInterval_healthy key data m H).
  destruct (polls key rest _); reflexivity.
Qed.

Lemma polls_unavailable key data rest m :
  has_status data "backend-unavailable" ->
  polls key (data :: rest) m
  = ((polls key rest m).1, Some 15000 :: (polls key rest m).2).
Proof.
  intros H. simpl. rewrite (refetchInterval_unavailable key data m H).
  destruct (polls key rest _); reflexivity.
Qed.

Lemma polls_no_data key rest m :
  polls key (JUndefined :: rest) m
  = ((polls key rest (<[key := failures m key + 1]> m)).1,
     index backoffDelays (Z.min (failures m key) 3)
       :: (polls key rest (<[key := failures m key + 1]> m)).2).
Proof.
  cbn [polls]. rewrite (refetchInterval_backoff key JUndefined m) by reflexivity.
  destruct (polls key rest _); reflexivity.
Qed.

Lemma polls_nil key (m : gmap string Z) : polls key [] m = (m, []).
Proof. reflexivity. Qed.

#[local] Ltac step_polls :=
  repeat (first
    [ rewrite polls_failing by (auto; fail)
    | rewrite polls_healthy by (auto; fail)
    | rewrite polls_unavailable by (auto; fail)
    | rewrite polls_no_data
    | rewrite polls_nil
    | rewrite failures_insert ];
    cbn [fst snd]).

(** C1, where the code departs from it.  The callback counts its own
    evaluations, not polls.  On every evaluation with status [error] the table
    [5000, 10000, 20000, 30000] is read at the count found before the
    increment, capped at its last index, and the stored count becomes that
    count plus one.  So, at the start of a failure streak, one result with
    status [error] evaluated twice gets 5000 and then 10000 ms and leaves the
    count 2; and on the empty map, four evaluations before any result followed
    by three on the first [error] result return 5000, 10000, 20000, 30000,
    30000, 30000 and 30000 ms and leave the count 7: the delay in force after
    the first [error] poll is then 30000 ms, not 5000 ms. *)
Theorem backoff_counts_evaluations key (e : JsVal) (m : gmap string Z) :
  has_status e "error" ->
  failures m key = 0 ->
  (polls key [e; e] m).2 = [Some 5000; Some 10000]
  /\ (polls key [e; e] m).1 !! key = Some 2
  /\ (polls key
        [JUndefined; JUndefined; JUndefined; JUndefined; e; e; e] ∅).2
     = [Some 5000; Some 10000; Some 20000; Some 30000;
        Some 30000; Some 30000; Some 30000]
  /\ (polls key
        [JUndefined; JUndefined; JUndefined; JUndefined; e; e; e] ∅).1 !! key
     = Some 7
  /\ (forall data (m' : gmap string Z),
        has_status data "error" -> 0 <= failures m' key ->
        refetchInterval key data m'
        = (<[key := failures m' key + 1]> m',
           backoffDelays !! Z.to_nat (Z.min (failures m' key) 3))
        /\ (3 <= failures m' key ->
            (refetchInterval key data m').2 = Some 30000)).
Proof.
  intros He Hm. split; [| split; [| split; [| split]]].
  - step_polls. rewrite Hm. reflexivity.
  - step_polls. rewrite Hm. apply lookup_insert_eq.
  - step_polls. rewrite failures_empty. step_polls. reflexivity.
  - step_polls. rewrite failures_empty. step_polls. apply lookup_insert_eq.
  - intros data m' Hd Hc.
    rewrite (refetchInterval_failing key data m') by auto. split.
    + unfold index. destruct (Z.ltb_spec (Z.min (failures m' key) 3) 0); [lia |].
      reflexivity.
    + intros H3'. cbn [snd]. rewrite backoff_index by exact Hc.
      destruct (Z.eqb_spec (failures m' key) 0); [lia |].
      destruct (Z.eqb_spec (failures m' key) 1); [lia |].
      destruct (Z.eqb_spec (failures m' key) 2); [lia |]. reflexivity.
Qed.

Lemma backoff_counts_evaluations_witness :
  has_status (report "error") "error"
  /\ failures ∅ failureCountKey = 0
  /\ (polls failureCountKey
        [JUndefined; JUndefined; JUndefined; JUndefined;
         report "error"; report "error"; report "error"] ∅).2
     = [Some 5000; Some 10000; Some 20000; Some 30000;
        Some 30000; Some 30000; Some 30000]
  /\ (polls failureCountKey
        [JUndefined; JUndefined; JUndefined; JUndefined;
         report "error"; report "error"; report "error"] ∅).1
     !! failureCountKey = Some 7.
Proof.
  split; [reflexivity |]. split; [reflexivity |].
  pose proof (backoff_counts_evaluations failureCountKey (report "error") ∅
                eq_refl eq_refl) as (_ & _ & Hdelays & Hcount & _).
  split; [exact Hdelays | exact Hcount].
Defined.

(** C2, where the code departs from it.  An evaluation with status [healthy]
    stores 0 as the failure count of the series key and returns 30000 ms,
    from any map, and evaluating it again on the same result changes nothing
    more; the first evaluation with status [error] or [unhealthy] after it
    returns 5000 ms.  But the following result counts once per evaluation:
    evaluated twice it gets 5000 and then 10000 ms and leaves the count 2, so
    the delay in force after the failure that follows a [healthy] result is
    10000 ms, not 5000 ms. *)
Theorem healthy_resets_but_failure_recounted key (h d : JsVal)
    (m : gmap string Z) :
  has_status h "healthy" ->
  has_status d "error" \/ has_status d "unhealthy" ->
  refetchInterval key h m = (<[key := 0]> m, Some 30000)
  /\ (refetchInterval key h m).1 !! key = Some 0
  /\ polls key [h; h] m = ((refetchInterval key h m).1, [Some 30000; Some 30000])
  /\ (refetchInterval key d (refetchInterval key h m).1).2 = Some 5000
  /\ (polls key [h; d; d] m).2 = [Some 30000; Some 5000; Some 10000]
  /\ (polls key [h; d; d] m).1 !! key = Some 2.
Proof.
  intros Hh Hd.
  rewrite (refetchInterval_healthy key h m Hh). cbn [fst snd].
  split; [reflexivity |]. split; [apply lookup_insert_eq |].
  split; [| split; [| split]].
  - step_polls. rewrite insert_insert_eq. reflexivity.
  - rewrite (refetchInterval_failing key d _ Hd). cbn [snd].
    rewrite failures_insert. reflexivity.
  - step_polls. reflexivity.
  - step_polls. apply lookup_insert_eq.
Qed.

Lemma healthy_resets_but_failure_recounted_witness :
  has_status (report "healthy") "healthy"
  /\ has_status (report "error") "error"
  /\ (polls failureCountKey
        [report "healthy"; report "error"; report "error"] ∅).2
     = [Some 30000; Some 5000; Some 10000].
Proof.
  split; [reflexivity |]. split; [reflexivity |].
  exact (proj1 (proj2 (proj2 (proj2 (proj2
    (healthy_resets_but_failure_recounted failureCountKey
       (report "healthy") (report "error") ∅
       eq_refl (or_introl eq_refl))))))).
Defined.

(** C3, where the code departs from it.  An evaluation with status
    [backend-unavailable] returns the map of failure counts as it found it and
    15000 ms, however often it is repeated.  But the [error] results around it
    count once per evaluation: at the start of a failure streak, with the
    first [error] result evaluated twice, the evaluations on [error],
    [backend-unavailable], [error] return 5000, 10000, 15000 and 20000 ms, the
    second [error] result reading the count 2 and leaving 3; the delays in
    force after the three polls are then 10000, 15000 and 20000 ms, not 5000,
    15000 and 10000 ms. *)
Theorem unavailable_untouched_but_errors_recounted key (e1 u e2 : JsVal)
    (m : gmap string Z) :
  has_status u "backend-unavailable" ->
  has_status e1 "error" -> has_status e2 "error" ->
  failures m key = 0 ->
  (forall m' : gmap string Z, refetchInterval key u m' = (m', Some 15000))
  /\ (forall m' : gmap string Z,
        polls key [u; u] m' = (m', [Some 15000; Some 15000]))
  /\ (polls key [e1; e1; u; e2] m).2
     = [Some 5000; Some 10000; Some 15000; Some 20000]
  /\ failures (polls key [e1; e1; u] m).1 key = 2
  /\ failures (polls key [e1; e1; u; e2] m).1 key = 3.
Proof.
  intros Hu H1 H2 Hm. split; [| split; [| split; [| split]]].
  - intros m'. apply refetchInterval_unavailable, Hu.
  - intros m'. step_polls. reflexivity.
  - step_polls. rewrite Hm. reflexivity.
  - step_polls. rewrite Hm. reflexivity.
  - step_polls. rewrite Hm. reflexivity.
Qed.

Lemma unavailable_untouched_but_errors_recounted_witness :
  has_status (report "backend-unavailable") "backend-unavailable"
  /\ has_status (report "error") "error"
  /\ failures ∅ failureCountKey = 0
  /\ (polls failureCountKey
        [report "error"; report "error"; report "backend-unavailable";
         report "error"] ∅).2
     = [Some 5000; Some 10000; Some 15000; Some 20000].
Proof.
  split; [reflexivity |]. split; [reflexivity |]. split; [reflexivity |].
  exact (proj1 (proj2 (proj2
    (unavailable_untouched_but_errors_recounted failureCountKey
       (report "error") (report "backend-unavailable") (report "error") ∅
       eq_refl eq_refl eq_refl eq_refl)))).
Defined.

(** C9. In every state the map of failure counts can reach, each stored
    count and each count read is a non-negative integer, and one more
    evaluation of the policy keeps it so: on [backend-unavailable] the map is
    returned as it was, on [healthy] the count of the series key becomes 0, on
    [unhealthy] or [error] it becomes the count read plus exactly one, and the
    counts of other keys are not touched. *)
Theorem failure_count_never_negative (m : gmap string Z) (key k : string)
    (data : JsVal) :
  reachable m ->
  (forall c, m !! k = Some c -> 0 <= c)
  /\ 0 <= failures m k
  /\ reachable (refetchInterval key data m).1
  /\ (forall c, (refetchInterval key data m).1 !! k = Some c -> 0 <= c)
  /\ (has_status data "backend-unavailable" ->
      (refetchInterval key data m).1 = m)
  /\ (has_status data "healthy" ->
      (refetchInterval key data m).1 !! key = Some 0)
  /\ (has_status data "unhealthy" \/ has_status data "error" ->
      (refetchInterval key data m).1 !! key = Some (failures m key + 1))
  /\ (key <> k -> (refetchInterval key data m).1 !! k = m !! k).
Proof.
  intros Hm. pose proof (reachable_counts_nonneg m Hm) as Hnn.
  repeat apply conj.
  - apply Hnn.
  - apply counts_nonneg_failures, Hnn.
  - apply reachable_step, Hm.
  - apply (refetchInterval_counts_nonneg key data m Hnn).
  - intros H. by rewrite (refetchInterval_unavailable key data m H).
  - intros H. rewrite (refetchInterval_healthy key data m H).
    apply lookup_insert_eq.
  - intros H. rewrite (refetchInterval_failing key data m) by tauto.
    apply lookup_insert_eq.
  - apply refetchInterval_other_keys.
Qed.

Lemma failure_count_never_negative_witness :
  reachable (polls failureCountKey [report "error"; report "unhealthy"] ∅).1
  /\ (refetchInterval failureCountKey (report "error")
        (polls failureCountKey [report "error"; report "unhealthy"] ∅).1).1
     !! failureCountKey = Some 3.
Proof.
  assert (reachable
            (polls failureCountKey [report "error"; report "unhealthy"] ∅).1)
    as Hr.
  { exact (reachable_step _ failureCountKey (report "unhealthy")
             (reachable_step _ failureCountKey (report "error")
                reachable_init)). }
  split; [exact Hr |].
  destruct (failure_count_never_negative _ failureCountKey failureCountKey
              (report "error") Hr) as (_ & _ & _ & _ & _ & _ & Hinc & _).
  rewrite Hinc by (right; reflexivity). reflexivity.
Defined.

(** C10. Evaluated with no previous report ([query.state.data] undefined), the
    policy takes the path of [unhealthy] and [error]: it stores the count read
    for the series key plus one and returns the entry of the backoff table for
    the count read, exactly as for a report with status [error]; on the empty
    map this is 5000 ms with the count set to 1, neither 30000 ms nor
    15000 ms. *)
Theorem no_report_takes_backoff_path key (m : gmap string Z) :
  refetchInterval key JUndefined m
  = (<[key := failures m key + 1]> m,
     index backoffDelays (Z.min (failures m key) 3))
  /\ refetchInterval key JUndefined m = refetchInterval key (report "error") m
  /\ refetchInterval key JUndefined ∅ = (<[key := 1]> ∅, Some 5000).
Proof.
  split; [| split].
  - apply refetchInterval_backoff; reflexivity.
  - rewrite (refetchInterval_failing key (report "error") m)
      by (left; reflexivity).
    apply refetchInterval_backoff; reflexivity.
  - reflexivity.
Qed.

(** ** The health check *)

Lemma or_else_filter params :
  or_else (params_provider params) (JStr "unknown")
  = JStr (filter_or_unknown params).
Proof. destruct params as [[[[] |]] |]; reflexivity. Qed.

Lemma request_resolves origin fetch params response :
  request origin fetch params = Normal response ->
  forall response', request origin (fun _ => Normal response') params
                    = Normal response'.
Proof.
  unfold request, URL_new. destruct (String.eqb origin "null"); cbn.
  - discriminate.
  - intros _ response'. destruct (params_provider params); reflexivity.
Qed.

Lemma status_503_not_ok response : status response = 503 -> ok response = false.
Proof. unfold ok. intros ->. reflexivity. Qed.

(** Every path of the health check returns a report. *)
Lemma checkProviderHealth_returns origin fetch params :
  exists result, checkProviderHealth origin fetch params = Normal result.
Proof.
  unfold checkProviderHealth.
  destruct (request origin fetch params) as [response | e]; cbn; [| eauto].
  destruct (ok response).
  - destruct (json response); cbn; eauto.
  - destruct (status response =? 503);
      destruct (json response) as [[] | e]; cbn; eauto.
Qed.

(** C4. When building the URL or the fetch throws or rejects, the health
    check returns: its result is the object with exactly the properties
    [status] = [backend-unavailable], [message] = the message of the error (or
    ["Connection failed"] when what was thrown is no [Error]) and [provider] =
    the provider of [params] or ["unknown"]. *)
Theorem transport_failure_is_backend_unavailable origin fetch params e :
  request origin fetch params = Throw e ->
  checkProviderHealth origin fetch params
  = Normal (JObj
      [ ("status", JStr "backend-unavailable");
        ("message", JStr (match e with
                          | ErrorInstance message => message
                          | NonError _ => "Connection failed"
                          end));
        ("provider", JStr (filter_or_unknown params)) ]).
Proof.
  intros H. unfold checkProviderHealth. rewrite H. cbn.
  rewrite or_else_filter. reflexivity.
Qed.

Lemma transport_failure_is_backend_unavailable_witness :
  request "http://localhost:3000"
    (fun _ => Throw (ErrorInstance "Failed to fetch"))
    (Some {| provider := Some ollama |})
  = Throw (ErrorInstance "Failed to fetch")
  /\ checkProviderHealth "http://localhost:3000"
       (fun _ => Throw (ErrorInstance "Failed to fetch"))
       (Some {| provider := Some ollama |})
     = Normal (JObj
         [ ("status", JStr "backend-unavailable");
           ("message", JStr "Failed to fetch");
           ("provider", JStr "ollama") ]).
Proof.
  split; [reflexivity |].
  exact (transport_failure_is_backend_unavailable "http://localhost:3000"
    (fun _ => Throw (ErrorInstance "Failed to fetch"))
    (Some {| provider := Some ollama |}) (ErrorInstance "Failed to fetch")
    eq_refl).
Defined.

(** C7. On a response with status code 503 whose body does not parse, the
    health check returns the report with [status] = [unhealthy], [message] =
    ["Provider validation failed"], [provider] = the provider of [params] or
    ["unknown"], and [llm_provider], [embedding_provider], [llm_error],
    [embedding_error] and [details] undefined. *)
Theorem unparseable_503_is_unhealthy origin fetch params response e :
  request origin fetch params = Normal response ->
  status response = 503 ->
  json response = Throw e ->
  checkProviderHealth origin fetch params
  = Normal (JObj
      [ ("status", JStr "unhealthy");
        ("message", JStr "Provider validation failed");
        ("provider", JStr (filter_or_unknown params));
        ("llm_provider", JUndefined);
        ("embedding_provider", JUndefined);
        ("llm_error", JUndefined);
        ("embedding_error", JUndefined);
        ("details", JUndefined) ])
  /\ (forall result k,
        checkProviderHealth origin fetch params = Normal result ->
        In k ["llm_provider"; "embedding_provider"; "llm_error";
              "embedding_error"; "details"] ->
        get_opt result k = JUndefined).
Proof.
  intros Hreq Hst Hjson.
  assert (checkProviderHealth origin fetch params
          = Normal (JObj
              [ ("status", JStr "unhealthy");
                ("message", JStr "Provider validation failed");
                ("provider", JStr (filter_or_unknown params));
                ("llm_provider", JUndefined);
                ("embedding_provider", JUndefined);
                ("llm_error", JUndefined);
                ("embedding_error", JUndefined);
                ("details", JUndefined) ])) as Heq.
  { unfold checkProviderHealth.
    rewrite Hreq. cbn. rewrite (status_503_not_ok response Hst), Hst, Hjson.
    cbn. fold (or_else (params_provider params) (JStr "unknown")).
    rewrite or_else_filter. reflexivity. }
  split; [exact Heq |].
  intros result k Hres Hk. rewrite Heq in Hres. injection Hres as <-.
  cbn in Hk. destruct Hk as [<- | [<- | [<- | [<- | [<- | []]]]]]; reflexivity.
Qed.

Lemma unparseable_503_is_unhealthy_witness :
  let response :=
    {| status := 503;
       json := Throw (ErrorInstance "Unexpected end of JSON input") |} in
  request "http://localhost:3000" (fun _ => Normal response) None
  = Normal response
  /\ checkProviderHealth "http://localhost:3000" (fun _ => Normal response) None
     = Normal (JObj
         [ ("status", JStr "unhealthy");
           ("message", JStr "Provider validation failed");
           ("provider", JStr "unknown");
           ("llm_provider", JUndefined);
           ("embedding_provider", JUndefined);
           ("llm_error", JUndefined);
           ("embedding_error", JUndefined);
           ("details", JUndefined) ]).
Proof.
  intros response. split; [reflexivity |].
  exact (proj1 (unparseable_503_is_unhealthy "http://localhost:3000"
    (fun _ => Normal response) None response
    (ErrorInstance "Unexpected end of JSON input") eq_refl eq_refl eq_refl)).
Defined.

(** C8. On a response with a success status code whose body parses, the
    health check returns the parsed body itself, whatever it is. *)
Theorem success_body_returned_verbatim origin fetch params response body :
  request origin fetch params = Normal response ->
  ok response = true ->
  json response = Normal body ->
  checkProviderHealth origin fetch params = Normal body.
Proof.
  intros Hreq Hok Hjson. unfold checkProviderHealth.
  rewrite Hreq. cbn. rewrite Hok, Hjson. reflexivity.
Qed.

Lemma success_body_returned_verbatim_witness :
  let body :=
    JObj [ ("status", JStr "healthy"); ("message", JStr "ok");
           ("llm_model", JStr "m1"); ("embedding_model", JStr "m2") ] in
  let response := {| status := 200; json := Normal body |} in
  ok response = true
  /\ checkProviderHealth "http://localhost:3000" (fun _ => Normal response)
       (Some {| provider := Some openai |})
     = Normal body.
Proof.
  intros body response. split; [reflexivity |].
  exact (success_body_returned_verbatim "http://localhost:3000"
    (fun _ => Normal response) (Some {| provider := Some openai |})
    response body eq_refl eq_refl eq_refl).
Defined.

(** C5, refuted as stated: on a response with status code 200 whose body does
    not parse no empty object is substituted; the rejection of
    [response.json()] reaches the [catch] block and the report is
    [backend-unavailable] with the parser's message. *)
Lemma malformed_success_body_not_defaulted :
  let response :=
    {| status := 200;
       json := Throw (ErrorInstance "Unexpected token '<'") |} in
  ok response = true
  /\ checkProviderHealth "http://localhost:3000" (fun _ => Normal response) None
     = Normal (JObj
         [ ("status", JStr "backend-unavailable");
           ("message", JStr "Unexpected token '<'");
           ("provider", JStr "unknown") ])
  /\ ~ degrades_to_defaults "http://localhost:3000" None response.
Proof.
  intros response. split; [reflexivity |]. split; [reflexivity |].
  unfold degrades_to_defaults. cbn. discriminate.
Qed.

(** C5, amended. On a response whose body does not parse the health check
    returns a report and does not raise.  With a status code outside 200-299,
    [{}] is substituted before the fields are read: the outcome is the one of
    the same response with the body [{}], namely the report with the status
    fixed by the code ([unhealthy] for 503, [error] otherwise), the fallback
    message of that status, the provider of [params] or ["unknown"], and the
    other fields undefined.  With a success status code nothing is
    substituted: the report is [backend-unavailable] with the message of the
    parse error. *)
Theorem malformed_body_outcome origin fetch params response e :
  request origin fetch params = Normal response ->
  json response = Throw e ->
  (exists result, checkProviderHealth origin fetch params = Normal result)
  /\ (ok response = false ->
      checkProviderHealth origin fetch params
      = checkProviderHealth origin
          (fun _ => Normal (with_json response (Normal (JObj [])))) params
      /\ checkProviderHealth origin fetch params
         = Normal (JObj
             [ ("status",
                 JStr (if status response =? 503 then "unhealthy" else "error"));
               ("message",
                 JStr (if status response =? 503
                       then "Provider validation failed"
                       else "Failed to check provider health"));
               ("provider", JStr (filter_or_unknown params));
               ("llm_provider", JUndefined);
               ("embedding_provider", JUndefined);
               ("llm_error", JUndefined);
               ("embedding_error", JUndefined);
               ("details", JUndefined) ]))
  /\ (ok response = true ->
      checkProviderHealth origin fetch params
      = Normal (JObj
          [ ("status", JStr "backend-unavailable");
            ("message", JStr (match e with
                              | ErrorInstance message => message
                              | NonError _ => "Connection failed"
                              end));
            ("provider", JStr (filter_or_unknown params)) ])).
Proof.
  intros Hreq Hjson. split; [apply checkProviderHealth_returns |].
  split; intros Hok.
  - split.
    + unfold checkProviderHealth.
      rewrite Hreq, (request_resolves _ _ _ _ Hreq). cbn.
      unfold ok in *. cbn. rewrite Hok, Hjson.
      destruct (status response =? 503); reflexivity.
    + unfold checkProviderHealth. rewrite Hreq. cbn. rewrite Hok, Hjson.
      destruct (status response =? 503); cbn;
        fold (or_else (params_provider params) (JStr "unknown"));
        rewrite or_else_filter; reflexivity.
  - unfold checkProviderHealth. rewrite Hreq. cbn. rewrite Hok, Hjson. cbn.
    rewrite or_else_filter. reflexivity.
Qed.

Lemma malformed_body_outcome_witness :
  let response :=
    {| status := 500;
       json := Throw (ErrorInstance "Unexpected token '<'") |} in
  ok response = false
  /\ degrades_to_defaults "http://localhost:3000" None response
  /\ checkProviderHealth "http://localhost:3000" (fun _ => Normal response) None
     = Normal (JObj
         [ ("status", JStr "error");
           ("message", JStr "Failed to check provider health");
           ("provider", JStr "unknown");
           ("llm_provider", JUndefined);
           ("embedding_provider", JUndefined);
           ("llm_error", JUndefined);
           ("embedding_error", JUndefined);
           ("details", JUndefined) ]).
Proof.
  intros response. split; [reflexivity |].
  exact (proj1 (proj2 (malformed_body_outcome "http://localhost:3000"
    (fun _ => Normal response) None response
    (ErrorInstance "Unexpected token '<'") eq_refl eq_refl)) eq_refl).
Defined.

(** ** The gate on polling *)

Lemma assoc_set_prop k k' v props :
  assoc k (set_prop k' v props)
  = if String.eqb k' k then Some v else assoc k props.
Proof.
  induction props as [| [k0 v0] rest IH]; cbn.
  - reflexivity.
  - destruct (String.eqb_spec k0 k') as [-> | Hne]; cbn.
    + destruct (String.eqb k' k); reflexivity.
    + rewrite IH. destruct (String.eqb_spec k0 k) as [-> | Hne']; [| reflexivity].
      destruct (String.eqb_spec k' k) as [-> | _]; [congruence | reflexivity].
Qed.

Lemma assoc_spread_absent k base src :
  assoc k src = None -> assoc k (spread base src) = assoc k base.
Proof.
  unfold spread. revert base.
  induction src as [| [k0 v0] rest IH]; intros base; cbn; [reflexivity |].
  destruct (String.eqb_spec k0 k) as [-> | Hne]; [discriminate |].
  intros H. rewrite (IH _ H), assoc_set_prop.
  destruct (String.eqb_spec k0 k); [congruence | reflexivity].
Qed.

(** Without an [enabled] property among the caller's options the query polls
    exactly when the gate of line 129 is open, that is when [settings.edited]
    is truthy. *)
Lemma polling_without_override settingsData options :
  match options with
  | Some props => assoc "enabled" props = None
  | None => True
  end ->
  polling (useQuery_options settingsData options) = gate settingsData options
  /\ gate settingsData options
     = truthy (get_opt (match settingsData with
                        | JUndefined => JObj []
                        | v => v
                        end) "edited").
Proof.
  intros H. unfold polling, useQuery_options, gate.
  rewrite assoc_spread_absent by (destruct options; [exact H | reflexivity]).
  destruct options as [props |]; [rewrite H |]; cbn;
    rewrite andb_true_r; split; try reflexivity;
    destruct (truthy _); reflexivity.
Qed.

(** An [enabled: false] among the caller's options closes the gate and
    switches polling off. *)
Lemma polling_disabled_by_caller settingsData :
  gate settingsData (Some [("enabled", JBool false)]) = false
  /\ polling (useQuery_options settingsData (Some [("enabled", JBool false)]))
     = false.
Proof. unfold gate. cbn. rewrite andb_false_r. split; reflexivity. Qed.

(** C6, at the input where the code departs from it: with [settings.edited]
    false and the caller's options [{enabled: true}], the gate of line 129 is
    closed, yet [...options] is spread after the computed [enabled] and puts
    the caller's [true] in its place, so the query polls although onboarding
    is not complete. *)
Theorem caller_enabled_overrides_gate :
  gate (JObj [("edited", JBool false)]) (Some [("enabled", JBool true)]) = false
  /\ assoc "enabled"
       (useQuery_options (JObj [("edited", JBool false)])
          (Some [("enabled", JBool true)]))
     = Some (JBool true)
  /\ polling
       (useQuery_options (JObj [("edited", JBool false)])
          (Some [("enabled", JBool true)]))
     = true.
Proof. split; [| split]; reflexivity. Qed.

(** * Further properties of the hook *)

(** ** The policy over sequences of evaluations *)

Lemma is_unavailable_not_healthy data :
  is_unavailable data = true -> is_healthy data = false.
Proof.
  unfold is_unavailable, is_healthy.
  destruct (get_opt data "status") as [| | | | s | | |]; try discriminate.
  cbn. intros H%String.eqb_eq. subst s. reflexivity.
Qed.

Lemma refetchInterval_is_healthy key data m :
  is_healthy data = true ->
  refetchInterval key data m = (<[key := 0]> m, Some 30000).
Proof. unfold is_healthy, refetchInterval. intros ->. reflexivity. Qed.

Lemma refetchInterval_is_unavailable key data m :
  is_unavailable data = true ->
  refetchInterval key data m = (m, Some 15000).
Proof.
  intros H. pose proof (is_unavailable_not_healthy data H) as H'.
  unfold is_healthy, is_unavailable, refetchInterval in *.
  rewrite H', H. reflexivity.
Qed.

Lemma refetchInterval_is_failing key data m :
  is_failing data = true ->
  refetchInterval key data m
  = (<[key := failures m key + 1]> m,
     index backoffDelays (Z.min (failures m key) 3)).
Proof.
  unfold is_failing, is_healthy, is_unavailable.
  intros [H1 H2]%andb_true_iff. apply negb_true_iff in H1, H2.
  apply refetchInterval_backoff; assumption.
Qed.

Lemma polls_cons key data rest m :
  polls key (data :: rest) m
  = ((polls key rest (refetchInterval key data m).1).1,
     (refetchInterval key data m).2
       :: (polls key rest (refetchInterval key data m).1).2).
Proof.
  simpl. destruct (refetchInterval key data m) as [m1 delay]. cbn [fst snd].
  destruct (polls key rest m1); reflexivity.
Qed.


(** A run of failing results, from any state. *)
Lemma polls_failing_run key results (m : gmap string Z) :
  Forall (fun data => is_failing data = true) results ->
  (results <> [] ->
   (polls key results m).1 !! key
   = Some (failures m key + Z.of_nat (length results)))
  /\ failures (polls key results m).1 key
     = failures m key + Z.of_nat (length results)
  /\ (forall i, (i < length results)%nat ->
        (polls key results m).2 !! i
        = Some (index backoffDelays
                  (Z.min (failures m key + Z.of_nat i) 3))).
Proof.
  intros Hall. revert m.
  induction Hall as [| data rest Hd _ IH]; intros m.
  - cbn. split; [congruence |]. split; [lia |]. intros i Hi. lia.
  - rewrite polls_cons, (refetchInterval_is_failing key data m Hd).
    cbn [fst snd]. specialize (IH (<[key := failures m key + 1]> m)).
    rewrite failures_insert in IH. destruct IH as (IH1 & IH2 & IH3).
    split; [| split].
    + intros _. destruct rest as [| d' rest'].
      * cbn [polls fst length]. rewrite lookup_insert_eq. reflexivity.
      * rewrite IH1 by discriminate.
        replace (failures m key + Z.of_nat (length (data :: d' :: rest')))
          with (failures m key + 1 + Z.of_nat (length (d' :: rest')))
          by (cbn [length]; lia).
        reflexivity.
    + rewrite IH2. cbn [length]. lia.
    + intros [| i] Hi.
      * replace (failures m key + Z.of_nat 0) with (failures m key) by lia.
        reflexivity.
      * cbn [length] in Hi.
        replace (failures m key + Z.of_nat (S i))
          with (failures m key + 1 + Z.of_nat i) by lia.
        apply IH3. lia.
Qed.

Lemma polls_without_healthy key results (m : gmap string Z) :
  Forall (fun data => is_healthy data = false) results ->
  failures (polls key results m).1 key
  = failures m key + Z.of_nat (length (List.filter is_failing results)).
Proof.
  intros Hall. revert m.
  induction Hall as [| data rest Hd _ IH]; intros m; [cbn; lia |].
  rewrite polls_cons. cbn [fst snd List.filter]. rewrite IH.
  unfold is_failing at 2. rewrite Hd. cbn [negb andb].
  destruct (is_unavailable data) eqn:Hu; cbn [negb].
  - rewrite (refetchInterval_is_unavailable key data m Hu). reflexivity.
  - rewrite (refetchInterval_is_failing key data m)
      by (unfold is_failing; rewrite Hd, Hu; reflexivity).
    cbn [fst length]. rewrite failures_insert. lia.
Qed.


(** X1. In every state the map of failure counts can reach, and for any
    previous result, the policy returns a number, one of 5000, 10000, 15000,
    20000 and 30000 ms; it never returns [undefined]. *)
Theorem delay_in_fixed_set key data (m : gmap string Z) :
  reachable m ->
  exists d,
    (refetchInterval key data m).2 = Some d
    /\ In d [5000; 10000; 15000; 20000; 30000]
    /\ 5000 <= d <= 30000.
Proof.
  intros Hm. pose proof (reachable_counts_nonneg m Hm) as Hnn.
  pose proof (counts_nonneg_failures m key Hnn) as Hc.
  destruct (is_healthy data) eqn:Hh.
  { rewrite (refetchInterval_is_healthy key data m Hh).
    exists 30000. cbn. intuition lia. }
  destruct (is_unavailable data) eqn:Hu.
  { rewrite (refetchInterval_is_unavailable key data m Hu).
    exists 15000. cbn. intuition lia. }
  rewrite (refetchInterval_is_failing key data m)
    by (unfold is_failing; rewrite Hh, Hu; reflexivity).
  cbn [snd]. rewrite (backoff_index _ Hc). eexists. split; [reflexivity |].
  destruct (Z.eqb_spec (failures m key) 0); [cbn; intuition lia |].
  destruct (Z.eqb_spec (failures m key) 1); [cbn; intuition lia |].
  destruct (Z.eqb_spec (failures m key) 2); cbn; intuition lia.
Qed.

Lemma delay_in_fixed_set_witness :
  reachable (polls failureCountKey [report "unhealthy"] ∅).1
  /\ exists d,
       (refetchInterval failureCountKey (report "degraded")
          (polls failureCountKey [report "unhealthy"] ∅).1).2 = Some d
       /\ In d [5000; 10000; 15000; 20000; 30000]
       /\ 5000 <= d <= 30000.
Proof.
  assert (reachable (polls failureCountKey [report "unhealthy"] ∅).1) as Hr.
  { exact (reachable_step _ failureCountKey (report "unhealthy")
             reachable_init). }
  split; [exact Hr |].
  exact (delay_in_fixed_set failureCountKey (report "degraded") _ Hr).
Defined.

(** X2. The stored count counts evaluations of the callback.  Over any
    sequence of evaluations on inputs that are neither [healthy] nor
    [backend-unavailable] (a failing result, the same result again, or no
    data), starting from a count [c >= 0], the stored count ends at [c] plus
    the number of evaluations, evaluation [i] returns the table entry at
    [min(c + i, 3)], and every evaluation that reads a count of 3 or more
    returns 30000 ms. *)
Theorem failure_streak key inputs (m : gmap string Z) :
  Forall (fun data => is_failing data = true) inputs ->
  0 <= failures m key ->
  failures (polls key inputs m).1 key
  = failures m key + Z.of_nat (length inputs)
  /\ (forall i, (i < length inputs)%nat ->
        (polls key inputs m).2 !! i
        = Some (backoffDelays
                  !! Z.to_nat (Z.min (failures m key + Z.of_nat i) 3))
        /\ (3 <= failures m key + Z.of_nat i ->
            (polls key inputs m).2 !! i = Some (Some 30000))).
Proof.
  intros Hall Hc.
  destruct (polls_failing_run key inputs m Hall) as (_ & Hcount & Hdelay).
  split; [exact Hcount |]. intros i Hi. rewrite (Hdelay i Hi). split.
  - unfold index.
    destruct (Z.ltb_spec (Z.min (failures m key + Z.of_nat i) 3) 0); [lia |].
    reflexivity.
  - intros H3. rewrite backoff_index by lia.
    destruct (Z.eqb_spec (failures m key + Z.of_nat i) 0); [lia |].
    destruct (Z.eqb_spec (failures m key + Z.of_nat i) 1); [lia |].
    destruct (Z.eqb_spec (failures m key + Z.of_nat i) 2); [lia |].
    reflexivity.
Qed.

Lemma failure_streak_witness :
  Forall (fun data => is_failing data = true)
    [report "error"; JUndefined; report "unhealthy"; report "degraded";
     JArr []; report "error"]
  /\ failures (polls failureCountKey
       [report "error"; JUndefined; report "unhealthy"; report "degraded";
        JArr []; report "error"] ∅).1 failureCountKey = 6.
Proof.
  assert (Forall (fun data => is_failing data = true)
            [report "error"; JUndefined; report "unhealthy"; report "degraded";
             JArr []; report "error"]) as Hall.
  { repeat constructor. }
  split; [exact Hall |].
  exact (proj1 (failure_streak failureCountKey _ ∅ Hall (Z.le_refl 0))).
Defined.



(** X4. After an evaluation on a [healthy] result, and as long as no further
    evaluation is on a [healthy] result, the count read for the series key is
    the number of evaluations since then on inputs that were neither
    [healthy] nor [backend-unavailable], repeated evaluations on one result
    each counting, whatever the map held and whatever was evaluated before. *)
Theorem count_since_last_healthy key before h after (m : gmap string Z) :
  is_healthy h = true ->
  Forall (fun data => is_healthy data = false) after ->
  failures (polls key (before ++ h :: after) m).1 key
  = Z.of_nat (length (List.filter is_failing after)).
Proof.
  intros Hh Hafter.
  rewrite (proj2 (polls_app key before (h :: after) m)).
  rewrite polls_cons. cbn [fst].
  rewrite (refetchInterval_is_healthy key h _ Hh). cbn [fst].
  rewrite (polls_without_healthy key after _ Hafter), failures_insert. lia.
Qed.

Lemma count_since_last_healthy_witness :
  is_healthy (report "healthy") = true
  /\ failures (polls failureCountKey
       ([report "error"; report "error"]
        ++ report "healthy"
           :: [report "error"; report "backend-unavailable"; JUndefined;
               report "backend-unavailable"; report "unhealthy"]) ∅).1
       failureCountKey = 3.
Proof.
  split; [reflexivity |].
  refine (count_since_last_healthy failureCountKey
    [report "error"; report "error"] (report "healthy")
    [report "error"; report "backend-unavailable"; JUndefined;
     report "backend-unavailable"; report "unhealthy"] ∅ eq_refl _).
  repeat constructor.
Defined.

(** X5. Results with status [backend-unavailable] are transparent to the
    backoff: dropping them from a series of polls changes neither the map of
    failure counts at the end nor the delay of any other poll. *)
Theorem unavailable_results_are_transparent key results (m : gmap string Z) :
  (polls key (List.filter (fun data => negb (is_unavailable data)) results) m).1
  = (polls key results m).1
  /\ (polls key
        (List.filter (fun data => negb (is_unavailable data)) results) m).2
     = delays_without is_unavailable results (polls key results m).2.
Proof.
  revert m. induction results as [| data rest IH]; intros m.
  - split; reflexivity.
  - cbn [List.filter]. rewrite (polls_cons key data rest m).
    cbn [fst snd delays_without].
    destruct (is_unavailable data) eqn:Hu; cbn [negb].
    + rewrite (refetchInterval_is_unavailable key data m Hu). cbn [fst snd].
      apply IH.
    + rewrite polls_cons. cbn [fst snd].
      destruct (IH (refetchInterval key data m).1) as [-> ->].
      split; reflexivity.
Qed.

(** ** The health check on failure responses *)

Lemma get_non_nullish body k :
  nullish body = false -> get body k = Normal (get_opt body k).
Proof. destruct body; cbn; (discriminate || reflexivity). Qed.

(** The report built from a response with a failure code, for a body that is
    not [null]; a body that does not parse reads as [{}]. *)
Lemma failure_report_form origin fetch params response :
  request origin fetch params = Normal response ->
  ok response = false ->
  (forall body, json response = Normal body -> nullish body = false) ->
  let errorData :=
    match json response with Normal body => body | Throw _ => JObj [] end in
  checkProviderHealth origin fetch params
  = Normal (JObj
      [ ("status",
          JStr (if status response =? 503 then "unhealthy" else "error"));
        ("message",
          or_else (get_opt errorData "message")
            (JStr (if status response =? 503 then "Provider validation failed"
                   else "Failed to check provider health")));
        ("provider",
          or_else (or_else (get_opt errorData "provider")
                     (params_provider params)) (JStr "unknown"));
        ("llm_provider", get_opt errorData "llm_provider");
        ("embedding_provider", get_opt errorData "embedding_provider");
        ("llm_error", get_opt errorData "llm_error");
        ("embedding_error", get_opt errorData "embedding_error");
        ("details", get_opt errorData "details") ]).
Proof.
  intros Hreq Hok Hbody errorData.
  assert (nullish errorData = false) as Hnn.
  { unfold errorData. destruct (json response) as [body | e];
      [apply Hbody; reflexivity | reflexivity]. }
  assert (promise_catch (json response) (fun _ => JObj []) = Normal errorData)
    as Hcatch.
  { unfold errorData. destruct (json response); reflexivity. }
  unfold checkProviderHealth. rewrite Hreq. cbn. rewrite Hok.
  destruct (status response =? 503); rewrite Hcatch; cbn;
    rewrite !(get_non_nullish errorData _ Hnn); reflexivity.
Qed.

Lemma truthy_or_else a b : truthy b = true -> truthy (or_else a b) = true.
Proof. unfold or_else. destruct (truthy a) eqn:E; congruence. Qed.

Lemma or_else_truthy a b : truthy a = true -> or_else a b = a.
Proof. unfold or_else. intros ->. reflexivity. Qed.

(** X6. On a response with a failure code whose body is not [null], the
    report's status is fixed by the code alone, [unhealthy] for 503 and
    [error] otherwise, whatever status the body carries; and its message and
    its provider are never missing or empty. *)
Theorem failure_status_from_code origin fetch params response :
  request origin fetch params = Normal response ->
  ok response = false ->
  (forall body, json response = Normal body -> nullish body = false) ->
  exists data,
    checkProviderHealth origin fetch params = Normal data
    /\ get_opt data "status"
       = JStr (if status response =? 503 then "unhealthy" else "error")
    /\ truthy (get_opt data "message") = true
    /\ truthy (get_opt data "provider") = true.
Proof.
  intros Hreq Hok Hbody.
  rewrite (failure_report_form origin fetch params response Hreq Hok Hbody).
  eexists. split; [reflexivity |]. cbn. split; [reflexivity |]. split.
  - apply truthy_or_else. destruct (status response =? 503); reflexivity.
  - apply truthy_or_else. reflexivity.
Qed.

Lemma failure_status_from_code_witness :
  let response :=
    {| status := 503;
       json := Normal (JObj [ ("status", JStr "healthy");
                              ("message", JStr EmptyString);
                              ("provider", JNull) ]) |} in
  ok response = false
  /\ exists data,
       checkProviderHealth "http://localhost:3000" (fun _ => Normal response)
         None = Normal data
       /\ get_opt data "status" = JStr "unhealthy"
       /\ truthy (get_opt data "message") = true
       /\ truthy (get_opt data "provider") = true.
Proof.
  intros response. split; [reflexivity |].
  refine (failure_status_from_code "http://localhost:3000"
    (fun _ => Normal response) None response eq_refl eq_refl _).
  intros body [= <-]. reflexivity.
Defined.

(** X7. On a response with a failure code whose body is an object, what the
    body says is kept: a truthy [message] and a truthy [provider] of the body
    are the report's (the body's provider wins over the one of [params]), and
    [llm_provider], [embedding_provider], [llm_error], [embedding_error] and
    [details] are those of the body, [undefined] where the body has none. *)
Theorem failure_body_fields_kept origin fetch params response props :
  request origin fetch params = Normal response ->
  ok response = false ->
  json response = Normal (JObj props) ->
  exists data,
    checkProviderHealth origin fetch params = Normal data
    /\ (truthy (get_opt (JObj props) "message") = true ->
        get_opt data "message" = get_opt (JObj props) "message")
    /\ (truthy (get_opt (JObj props) "provider") = true ->
        get_opt data "provider" = get_opt (JObj props) "provider")
    /\ (truthy (get_opt (JObj props) "provider") = false ->
        get_opt data "provider" = JStr (filter_or_unknown params))
    /\ (forall k,
          In k ["llm_provider"; "embedding_provider"; "llm_error";
                "embedding_error"; "details"] ->
          get_opt data k = get_opt (JObj props) k).
Proof.
  intros Hreq Hok Hjson.
  rewrite (failure_report_form origin fetch params response Hreq Hok)
    by (intros body; rewrite Hjson; intros [= <-]; reflexivity).
  rewrite Hjson. eexists. split; [reflexivity |].
  cbn [get_opt assoc String.eqb Ascii.eqb Bool.eqb default].
  split; [| split; [| split]].
  - intros H. apply or_else_truthy, H.
  - intros H. rewrite (or_else_truthy _ (params_provider params) H).
    apply or_else_truthy, H.
  - intros H. unfold or_else at 2. cbn [get_opt]. rewrite H.
    apply or_else_filter.
  - intros k Hk. cbn in Hk.
    destruct Hk as [<- | [<- | [<- | [<- | [<- | []]]]]]; reflexivity.
Qed.

Lemma failure_body_fields_kept_witness :
  let props :=
    [ ("message", JStr "Invalid API key"); ("provider", JStr "openai");
      ("llm_error", JStr "401") ] in
  let response := {| status := 503; json := Normal (JObj props) |} in
  ok response = false
  /\ exists data,
       checkProviderHealth "http://localhost:3000" (fun _ => Normal response)
         (Some {| provider := Some ollama |}) = Normal data
       /\ get_opt data "provider" = JStr "openai"
       /\ get_opt data "llm_error" = JStr "401".
Proof.
  intros props response. split; [reflexivity |].
  destruct (failure_body_fields_kept "http://localhost:3000"
    (fun _ => Normal response) (Some {| provider := Some ollama |})
    response props eq_refl eq_refl eq_refl)
    as (data & Hdata & _ & Hprov & _ & Hrest).
  exists data. split; [exact Hdata |]. split.
  - exact (Hprov eq_refl).
  - apply (Hrest "llm_error"). cbn. tauto.
Defined.

(** X8. On a response with a failure code, a body that parses to something
    that is neither an object nor [null] (a string, a number, a boolean, an
    array) is read like [{}]: every field takes its default. *)
Theorem non_object_body_reads_as_empty origin params response body :
  ok response = false ->
  json response = Normal body ->
  is_object body = false ->
  nullish body = false ->
  degrades_to_defaults origin params response.
Proof.
  intros Hok Hjson Hobj Hnull.
  unfold degrades_to_defaults, checkProviderHealth, request, URL_new.
  destruct (String.eqb origin "null"); [reflexivity |]. cbn.
  unfold ok in *. cbn. rewrite Hok, Hjson.
  destruct body; try discriminate; reflexivity.
Qed.

Lemma non_object_body_reads_as_empty_witness :
  let response :=
    {| status := 502; json := Normal (JStr "Bad Gateway") |} in
  ok response = false
  /\ checkProviderHealth "http://localhost:3000" (fun _ => Normal response) None
     = checkProviderHealth "http://localhost:3000"
         (fun _ => Normal {| status := 502; json := Normal (JObj []) |}) None.
Proof.
  intros response. split; [reflexivity |].
  exact (non_object_body_reads_as_empty "http://localhost:3000" None response
    (JStr "Bad Gateway") eq_refl eq_refl eq_refl eq_refl).
Defined.

(** X9. On a response with a failure code whose body parses to [null], reading
    the first field throws inside the [try]: the report is
    [backend-unavailable] with only [status], [message] and [provider], and
    the policy answers it with 15000 ms and leaves the failure count alone. *)
Theorem null_body_is_backend_unavailable origin fetch params response body :
  request origin fetch params = Normal response ->
  ok response = false ->
  json response = Normal body ->
  nullish body = true ->
  exists message,
    checkProviderHealth origin fetch params
    = Normal (JObj
        [ ("status", JStr "backend-unavailable");
          ("message", JStr message);
          ("provider", JStr (filter_or_unknown params)) ])
    /\ forall key (m : gmap string Z),
         refetchInterval key
           (JObj
              [ ("status", JStr "backend-unavailable");
                ("message", JStr message);
                ("provider", JStr (filter_or_unknown params)) ]) m
         = (m, Some 15000).
Proof.
  intros Hreq Hok Hjson Hnull.
  exists (type_error_message body "message"). split; [| reflexivity].
  unfold checkProviderHealth. rewrite Hreq. cbn. rewrite Hok, Hjson.
  destruct (status response =? 503); destruct body; try discriminate; cbn;
    rewrite or_else_filter; reflexivity.
Qed.

Lemma null_body_is_backend_unavailable_witness :
  let response := {| status := 500; json := Normal JNull |} in
  ok response = false
  /\ exists message,
       checkProviderHealth "http://localhost:3000" (fun _ => Normal response)
         None
       = Normal (JObj
           [ ("status", JStr "backend-unavailable");
             ("message", JStr message);
             ("provider", JStr "unknown") ]).
Proof.
  intros response. split; [reflexivity |].
  destruct (null_body_is_backend_unavailable "http://localhost:3000"
    (fun _ => Normal response) None response JNull
    eq_refl eq_refl eq_refl eq_refl) as (message & H & _).
  exists message. exact H.
Defined.

(** X10. When the fetch throws or rejects, the report the health check returns
    makes the policy answer 15000 ms and leave the map of failure counts as it
    is, whatever the error and the counts. *)
Theorem transport_failure_keeps_count origin fetch params e :
  request origin fetch params = Throw e ->
  exists data,
    checkProviderHealth origin fetch params = Normal data
    /\ forall key (m : gmap string Z),
         refetchInterval key data m = (m, Some 15000).
Proof.
  intros Hreq. unfold checkProviderHealth. rewrite Hreq. cbn.
  eexists. split; reflexivity.
Qed.

Lemma transport_failure_keeps_count_witness :
  request "http://localhost:3000"
    (fun _ => Throw (NonError (JStr "offline"))) None
  = Throw (NonError (JStr "offline"))
  /\ exists data,
       checkProviderHealth "http://localhost:3000"
         (fun _ => Throw (NonError (JStr "offline"))) None = Normal data
       /\ forall key (m : gmap string Z),
            refetchInterval key data m = (m, Some 15000).
Proof.
  split; [reflexivity |].
  exact (transport_failure_keeps_count "http://localhost:3000"
    (fun _ => Throw (NonError (JStr "offline"))) None
    (NonError (JStr "offline")) eq_refl).
Defined.

(** X11. A response with a failure code and a body other than [null] always
    counts as a failure: the policy answers the report with the backoff delay
    for the count read and stores that count plus one; it never resets the
    count, even when the body itself says [healthy]. *)
Theorem http_failure_backs_off origin fetch params response :
  request origin fetch params = Normal response ->
  ok response = false ->
  (forall body, json response = Normal body -> nullish body = false) ->
  exists data,
    checkProviderHealth origin fetch params = Normal data
    /\ forall key (m : gmap string Z),
         refetchInterval key data m
         = (<[key := failures m key + 1]> m,
            index backoffDelays (Z.min (failures m key) 3)).
Proof.
  intros Hreq Hok Hbody.
  rewrite (failure_report_form origin fetch params response Hreq Hok Hbody).
  eexists. split; [reflexivity |]. intros key m.
  apply refetchInterval_backoff; cbn;
    destruct (status response =? 503); reflexivity.
Qed.

Lemma http_failure_backs_off_witness :
  let response :=
    {| status := 404;
       json := Normal (JObj [("status", JStr "healthy")]) |} in
  ok response = false
  /\ exists data,
       checkProviderHealth "http://localhost:3000" (fun _ => Normal response)
         None = Normal data
       /\ forall key (m : gmap string Z),
            refetchInterval key data m
            = (<[key := failures m key + 1]> m,
               index backoffDelays (Z.min (failures m key) 3)).
Proof.
  intros response. split; [reflexivity |].
  refine (http_failure_backs_off "http://localhost:3000"
    (fun _ => Normal response) None response eq_refl eq_refl _).
  intros body [= <-]. reflexivity.
Defined.

(** ** The request *)

Lemma request_health_url origin fetch params :
  origin <> "null" ->
  request origin fetch params = fetch (health_url origin params).
Proof.
  intros Hne. unfold request, URL_new, health_url.
  destruct (String.eqb_spec origin "null") as [| _]; [congruence |]. cbn.
  destruct params as [[[[] |]] |]; reflexivity.
Qed.

(** X12. The health check makes one request, to the health path on the page's
    origin with the provider of [params] as its only query parameter, and its
    result depends on the network through the answer to that request alone. *)
Theorem only_health_url_is_fetched origin fetch fetch' params :
  origin <> "null" ->
  fetch (health_url origin params) = fetch' (health_url origin params) ->
  request origin fetch params = fetch (health_url origin params)
  /\ checkProviderHealth origin fetch params
     = checkProviderHealth origin fetch' params.
Proof.
  intros Hne Heq. split; [apply request_health_url, Hne |].
  unfold checkProviderHealth.
  rewrite !(request_health_url origin _ params Hne), Heq. reflexivity.
Qed.

Lemma only_health_url_is_fetched_witness :
  health_url "http://localhost:3000" (Some {| provider := Some watsonx |})
  = "http://localhost:3000/api/provider/health?provider=watsonx"
  /\ checkProviderHealth "http://localhost:3000"
       (fun url =>
          if String.eqb url
               "http://localhost:3000/api/provider/health?provider=watsonx"
          then Normal {| status := 200; json := Normal (report "healthy") |}
          else Throw (ErrorInstance "Failed to fetch"))
       (Some {| provider := Some watsonx |})
     = checkProviderHealth "http://localhost:3000"
         (fun _ => Normal {| status := 200; json := Normal (report "healthy") |})
         (Some {| provider := Some watsonx |}).
Proof.
  split; [reflexivity |].
  refine (proj2 (only_health_url_is_fetched "http://localhost:3000" _ _
    (Some {| provider := Some watsonx |}) _ eq_refl)).
  discriminate.
Defined.

(** ** The caller's options *)

Lemma assoc_absent k (props : list (string * JsVal)) :
  k ∉ map fst props -> assoc k props = None.
Proof.
  induction props as [| [k0 v0] rest IH]; cbn; [reflexivity |].
  intros [Hne Hrest]%not_elem_of_cons.
  destruct (String.eqb_spec k0 k); [congruence | apply IH, Hrest].
Qed.

Lemma assoc_spread k base src :
  NoDup (map fst src) ->
  assoc k (spread base src)
  = match assoc k src with
    | Some v => Some v
    | None => assoc k base
    end.
Proof.
  unfold spread. revert base.
  induction src as [| [k0 v0] rest IH]; intros base Hnd; [reflexivity |].
  cbn in Hnd. apply NoDup_cons in Hnd as [Hk0 Hnd].
  cbn [fold_left fst snd assoc]. rewrite (IH _ Hnd), assoc_set_prop.
  destruct (String.eqb_spec k0 k) as [<- | Hne]; [| reflexivity].
  rewrite (assoc_absent k0 rest Hk0). reflexivity.
Qed.

Lemma hook_option_other_than_enabled k settingsData options :
  k <> "enabled" ->
  assoc k (useQuery_options settingsData None)
  = assoc k
      (literal
        [ ("queryKey", JArr (map JStr queryKey));
          ("queryFn", JFun "checkProviderHealth");
          ("retry", JBool false);
          ("refetchInterval", JFun "refetchInterval");
          ("refetchOnWindowFocus", JBool false);
          ("refetchOnMount", JBool true);
          ("staleTime", JNum (num_of_Z 30000));
          ("enabled",
            JBool (truthy (get_opt (match settingsData with
                                    | JUndefined => JObj []
                                    | v => v
                                    end) "edited")
                   && not_false (match options with
                                 | Some props =>
                                     default JUndefined (assoc "enabled" props)
                                 | None => JUndefined
                                 end))) ]).
Proof.
  intros Hne.
  assert (String.eqb "enabled" k = false) as He
    by (apply String.eqb_neq; congruence).
  unfold useQuery_options, literal, spread.
  cbn [fold_left fst snd default]. rewrite !assoc_set_prop, He. reflexivity.
Qed.

(** X13. Whatever the caller passes in [options] reaches [useQuery]: an
    option the caller supplies replaces the hook's value for it, the polling
    policy and [enabled] included; an option the caller leaves out keeps the
    hook's value. *)
Theorem caller_options_take_precedence settingsData props k :
  NoDup (map fst props) ->
  (forall v, assoc k props = Some v ->
     assoc k (useQuery_options settingsData (Some props)) = Some v)
  /\ (assoc k props = None -> k <> "enabled" ->
      assoc k (useQuery_options settingsData (Some props))
      = assoc k (useQuery_options settingsData None)).
Proof.
  intros Hnd. split.
  - intros v Hv. unfold useQuery_options. cbn [default].
    rewrite (assoc_spread k _ props Hnd), Hv. reflexivity.
  - intros Hnone Hne.
    rewrite (hook_option_other_than_enabled k settingsData (Some props) Hne).
    unfold useQuery_options. cbn [default].
    rewrite (assoc_spread k _ props Hnd), Hnone. reflexivity.
Qed.

Lemma caller_options_take_precedence_witness :
  NoDup (map fst [ ("refetchInterval", JBool false);
                   ("staleTime", JNum (num_of_Z 0)) ])
  /\ assoc "refetchInterval"
       (useQuery_options (JObj [("edited", JBool true)])
          (Some [ ("refetchInterval", JBool false);
                  ("staleTime", JNum (num_of_Z 0)) ]))
     = Some (JBool false)
  /\ assoc "retry"
       (useQuery_options (JObj [("edited", JBool true)])
          (Some [ ("refetchInterval", JBool false);
                  ("staleTime", JNum (num_of_Z 0)) ]))
     = assoc "retry" (useQuery_options (JObj [("edited", JBool true)]) None).
Proof.
  assert (NoDup (map fst [ ("refetchInterval", JBool false);
                           ("staleTime", JNum (num_of_Z 0)) ])) as Hnd.
  { cbn. compute_done. }
  split; [exact Hnd |].
  destruct (caller_options_take_precedence (JObj [("edited", JBool true)])
              [ ("refetchInterval", JBool false);
                ("staleTime", JNum (num_of_Z 0)) ] "refetchInterval" Hnd)
    as [Hwin _].
  destruct (caller_options_take_precedence (JObj [("edited", JBool true)])
              [ ("refetchInterval", JBool false);
                ("staleTime", JNum (num_of_Z 0)) ] "retry" Hnd)
    as [_ Hkeep].
  split; [exact (Hwin _ eq_refl) | apply Hkeep; [reflexivity | discriminate]].
Defined.

(** X14. When the caller's options have no [enabled] of their own, the query
    polls exactly when [settings.edited] is truthy; in particular it does not
    poll while the settings are not loaded. *)
Theorem polling_follows_onboarding settingsData options :
  match options with
  | Some props => assoc "enabled" props = None
  | None => True
  end ->
  polling (useQuery_options settingsData options)
  = truthy (get_opt settingsData "edited")
  /\ polling (useQuery_options JUndefined options) = false.
Proof.
  intros H. split.
  - destruct (polling_without_override settingsData options H) as [-> ->].
    destruct settingsData; reflexivity.
  - destruct (polling_without_override JUndefined options H) as [-> ->].
    reflexivity.
Qed.

Lemma polling_follows_onboarding_witness :
  assoc "enabled" [("staleTime", JNum (num_of_Z 0))] = None
  /\ polling (useQuery_options (JObj [("edited", JBool true)])
                (Some [("staleTime", JNum (num_of_Z 0))])) = true
  /\ polling (useQuery_options JUndefined
                (Some [("staleTime", JNum (num_of_Z 0))])) = false.
Proof.
  split; [reflexivity |].
  exact (polling_follows_onboarding (JObj [("edited", JBool true)])
    (Some [("staleTime", JNum (num_of_Z 0))]) eq_refl).
Defined.

(** X15. An [enabled: false] among the caller's options switches polling off,
    whatever the settings and the other options. *)
Theorem caller_can_disable_polling settingsData props :
  NoDup (map fst props) ->
  assoc "enabled" props = Some (JBool false) ->
  polling (useQuery_options settingsData (Some props)) = false.
Proof.
  intros Hnd He. unfold polling, useQuery_options. cbn [default].
  rewrite (assoc_spread "enabled" _ props Hnd), He. reflexivity.
Qed.

Lemma caller_can_disable_polling_witness :
  assoc "enabled" [("retry", JBool true); ("enabled", JBool false)]
  = Some (JBool false)
  /\ polling (useQuery_options (JObj [("edited", JBool true)])
                (Some [("retry", JBool true); ("enabled", JBool false)]))
     = false.
Proof.
  split; [reflexivity |].
  refine (caller_can_disable_polling (JObj [("edited", JBool true)])
    [("retry", JBool true); ("enabled", JBool false)] _ eq_refl).
  cbn. compute_done.
Defined.
